(** * Overlay positioning of the contextual menu and the tooltip

    A shallow embedding of [ContextualMenu.tsx] and of the tooltip module that
    follows it in the same source file: the position resolver
    [adjustForWindow], the geometry reader [getPositionStyle], the resize
    handler of the menu and the delayed opening of the tooltip, with the
    placement state of the tooltip and the open state of the menu. *)

From Stdlib Require Import Bool List Arith Lia.
From Stdlib Require Import Strings.Ascii Strings.String.
From Stdlib Require Import Floats.PrimFloat.
Import ListNotations.

Open Scope string_scope.
Open Scope bool_scope.

(** ** The string methods the resolver calls *)

Module JSString.

(** [s.startsWith(p)] *)
Definition startsWith (s p : string) : bool := String.prefix p s.

(** [s.endsWith(p)]: some suffix of [s] is [p]. *)
Fixpoint endsWith (s p : string) : bool :=
  if String.eqb s p then true
  else match s with
       | EmptyString => false
       | String _ s' => endsWith s' p
       end.

(** The rest of [s] after its first [n] characters. *)
Fixpoint drop (n : nat) (s : string) : string :=
  match n, s with
  | O, _ => s
  | S _, EmptyString => EmptyString
  | S n', String _ s' => drop n' s'
  end.

(** [s.replace(pat, rep)] with a string pattern: the first occurrence of
    [pat] in [s] is replaced, and [s] is returned as it is when there is
    none.  (The replacements used here hold no [$] pattern.) *)
Fixpoint replace (pat rep s : string) : string :=
  if String.prefix pat s then rep ++ drop (String.length pat) s
  else match s with
       | EmptyString => s
       | String c s' => String c (replace pat rep s')
       end.

End JSString.

(** ** The tooltip module *)

Module Tooltip.
Import JSString.

(** The [position] object. *)
Module position.
Definition btmCenter := "btm-center".
Definition btmLeft := "btm-left".
Definition btmRight := "btm-right".
Definition left := "left".
Definition right := "right".
Definition topCenter := "top-center".
Definition topLeft := "top-left".
Definition topRight := "top-right".
End position.

(** The type [Position]: the values of the [position] object. *)
Definition Position : list string :=
  [position.btmCenter; position.btmLeft; position.btmRight; position.left;
   position.right; position.topCenter; position.topLeft; position.topRight].

(** Modelled from the spec: the type [WindowFitment] is declared in the
    hooks module; for each of the four directions it holds the fit flags of
    the two opposite extents, and the fit of a centered overlay on its two
    sides.  [adjustForWindow] reads eight of these flags. *)
Record HorizontalFit := { fitsLeft : bool; fitsRight : bool }.
Record VerticalFit := { fitsAbove : bool; fitsBelow : bool }.
Record CenterFit := { fitsCentered : HorizontalFit }.
Record WindowFitment := {
  fromTop : VerticalFit;
  fromBottom : VerticalFit;
  fromLeft : HorizontalFit;
  fromRight : HorizontalFit;
  fromCenter : CenterFit
}.

(** The rewriting rules of [adjustForWindow], one definition per [if] of the
    source, in its order; each takes the current [newPosition]. *)
Definition ruleLeft (f : WindowFitment) (newPosition : string) : string :=
  if negb (fitsLeft (fromLeft f)) && (newPosition =? "left")
  then "top-right" else newPosition.

Definition ruleRight (f : WindowFitment) (newPosition : string) : string :=
  if negb (fitsRight (fromRight f)) && (newPosition =? "right")
  then "top-left" else newPosition.

Definition ruleFlipRight (f : WindowFitment) (newPosition : string) : string :=
  if negb (fitsLeft (fromRight f)) && endsWith newPosition "-right"
  then replace "right" "left" newPosition else newPosition.

Definition ruleFlipLeft (f : WindowFitment) (newPosition : string) : string :=
  if negb (fitsRight (fromLeft f)) && endsWith newPosition "-left"
  then replace "left" "right" newPosition else newPosition.

Definition ruleFlipTop (f : WindowFitment) (newPosition : string) : string :=
  if negb (fitsAbove (fromTop f)) && startsWith newPosition "top"
  then replace "top" "btm" newPosition else newPosition.

Definition ruleFlipBtm (f : WindowFitment) (newPosition : string) : string :=
  if negb (fitsBelow (fromBottom f)) && startsWith newPosition "btm"
  then replace "btm" "top" newPosition else newPosition.

Definition ruleCollapse (f : WindowFitment) (newPosition : string) : string :=
  if negb (fitsRight (fromLeft f)) && negb (fitsLeft (fromRight f))
     && (endsWith newPosition "-left" || endsWith newPosition "-right")
  then replace "right" "center" (replace "left" "center" newPosition)
  else newPosition.

(** The two replacements inside the last [if]. *)
Definition centerToRight (f : WindowFitment) (newPosition : string) : string :=
  if negb (fitsRight (fitsCentered (fromCenter f)))
  then replace "center" "right" newPosition else newPosition.

Definition centerToLeft (f : WindowFitment) (newPosition : string) : string :=
  if negb (fitsLeft (fitsCentered (fromCenter f)))
  then replace "center" "left" newPosition else newPosition.

(** The guard of the last [if]. *)
Definition centerGuard (f : WindowFitment) (newPosition : string) : bool :=
  endsWith newPosition "center"
  && (fitsRight (fitsCentered (fromCenter f))
      || fitsLeft (fitsCentered (fromCenter f))).

Definition ruleCenter (f : WindowFitment) (newPosition : string) : string :=
  if centerGuard f newPosition
  then centerToLeft f (centerToRight f newPosition)
  else newPosition.

Definition adjustForWindow (position : string) (fitsWindow : WindowFitment)
  : string :=
  let newPosition := position in
  let newPosition := ruleLeft fitsWindow newPosition in
  let newPosition := ruleRight fitsWindow newPosition in
  let newPosition := ruleFlipRight fitsWindow newPosition in
  let newPosition := ruleFlipLeft fitsWindow newPosition in
  let newPosition := ruleFlipTop fitsWindow newPosition in
  let newPosition := ruleFlipBtm fitsWindow newPosition in
  let newPosition := ruleCollapse fitsWindow newPosition in
  ruleCenter fitsWindow newPosition.

(** Every flag of a fitment is true. *)
Definition fitsH (h : HorizontalFit) : bool := fitsLeft h && fitsRight h.
Definition fitsV (v : VerticalFit) : bool := fitsAbove v && fitsBelow v.
Definition allFit (f : WindowFitment) : bool :=
  fitsV (fromTop f) && fitsV (fromBottom f) && fitsH (fromLeft f)
  && fitsH (fromRight f) && fitsH (fitsCentered (fromCenter f)).

(** A fitment from the eight flags the resolver reads; the two it does not
    read are given by [o]. *)
Definition mkFit (o ll lr rl rr ta bb cl cr : bool) : WindowFitment :=
  {| fromTop := {| fitsAbove := ta; fitsBelow := o |};
     fromBottom := {| fitsAbove := o; fitsBelow := bb |};
     fromLeft := {| fitsLeft := ll; fitsRight := lr |};
     fromRight := {| fitsLeft := rl; fitsRight := rr |};
     fromCenter := {| fitsCentered := {| fitsLeft := cl; fitsRight := cr |} |} |}.

(** The fitments on which the last rule sends a centered position to a
    side that the flip rules then reject: centering fits on the left only
    while a right corner does not fit leftwards and a left corner fits
    rightwards, or the mirror image. *)
Definition flipsAfterCentering (f : WindowFitment) : bool :=
  let c := fitsCentered (fromCenter f) in
  (fitsLeft c && negb (fitsRight c)
   && negb (fitsLeft (fromRight f)) && fitsRight (fromLeft f))
  || (fitsRight c && negb (fitsLeft c)
      && negb (fitsRight (fromLeft f)) && fitsLeft (fromRight f)).

(** Whether each of the two replacements of the last rule runs. *)
Definition firesCenterToRight (f : WindowFitment) (newPosition : string) : bool :=
  centerGuard f newPosition && negb (fitsRight (fitsCentered (fromCenter f))).

Definition firesCenterToLeft (f : WindowFitment) (newPosition : string) : bool :=
  centerGuard f newPosition && negb (fitsLeft (fitsCentered (fromCenter f))).

(** *** The geometry reader *)

Inductive CSSPosition :=
  static | absolute | fixed | relative | sticky | initial | inherit.

Module PositionStyle.
Record t := {
  left : float;
  pointerEvents : option string;
  position : CSSPosition;
  top : float
}.
End PositionStyle.

(** What [getPositionStyle] reads of the page: the bounding rectangle of
    the wrapper node and the scroll offsets of the window. *)
Record DOMRect := { x : float; y : float; height : float; width : float }.
Record HTMLElement := { getBoundingClientRect : DOMRect }.
Record Window := { scrollX : float; scrollY : float }.

(** [n || 0] on a number: [0], [-0] and [NaN] are falsy. *)
Definition orZero (n : float) : float :=
  if PrimFloat.is_zero n || PrimFloat.is_nan n then 0%float else n.

(** [wrapperNode] is [None] for a null reference. *)
Definition getPositionStyle (window : Window) (pos : string)
    (wrapperNode : option HTMLElement) : option PositionStyle.t :=
  match wrapperNode with
  | None => None
  | Some node =>
      let dimensions := getBoundingClientRect node in
      let left := orZero (x dimensions + scrollX window)%float in
      let top := orZero (y dimensions + scrollY window)%float in
      let '(left', top') :=
        if pos =? "btm-center" then
          ((left + width dimensions / 2)%float, (top + height dimensions)%float)
        else if pos =? "btm-left" then
          (left, (top + height dimensions)%float)
        else if pos =? "btm-right" then
          ((left + width dimensions)%float, (top + height dimensions)%float)
        else if pos =? "left" then
          (left, (top + height dimensions / 2)%float)
        else if pos =? "right" then
          ((left + width dimensions)%float, (top + height dimensions / 2)%float)
        else if pos =? "top-center" then
          ((left + width dimensions / 2)%float, top)
        else if pos =? "top-left" then
          (left, top)
        else if pos =? "top-right" then
          ((left + width dimensions)%float, top)
        else (left, top) in
      Some {| PositionStyle.left := left';
              PositionStyle.pointerEvents := None;
              PositionStyle.position := absolute;
              PositionStyle.top := top' |}
  end.

(** *** The delayed opening of the tooltip *)

(** The timers of the host.  [setTimeout] hands out a fresh handle and
    queues its callback, which here is always [openPortal], for the time it
    is due; [clearTimeout] drops the entry of a handle and does nothing for
    [null] and for a handle that has fired or was cleared. *)
Record Timeout := { handle : nat; due : nat }.

(** The state of one tooltip: the [isOpen] flag of the portal, the [timer]
    of [useState], the clock and the timer queue of the host, and a count
    of the transitions from closed to open. *)
Record State := {
  isOpen : bool;
  timer : option nat;
  now : nat;
  timeouts : list Timeout;
  nextHandle : nat;
  opened : nat
}.

Definition initialState : State :=
  {| isOpen := false; timer := None; now := 0; timeouts := [];
     nextHandle := 1; opened := 0 |}.

(** Modelled from the spec: the portal mechanism of [usePortal], an external
    collaborator offering open and close operations and an [isOpen] flag. *)
Definition openPortal (s : State) : State :=
  if isOpen s then s
  else {| isOpen := true; timer := timer s; now := now s;
          timeouts := timeouts s; nextHandle := nextHandle s;
          opened := S (opened s) |}.

Definition closePortal (s : State) : State :=
  {| isOpen := false; timer := timer s; now := now s;
     timeouts := timeouts s; nextHandle := nextHandle s;
     opened := opened s |}.

Definition setTimeout (delay : nat) (s : State) : nat * State :=
  (nextHandle s,
   {| isOpen := isOpen s; timer := timer s; now := now s;
      timeouts := timeouts s ++ [{| handle := nextHandle s;
                                    due := now s + delay |}];
      nextHandle := S (nextHandle s); opened := opened s |}).

Definition clearTimeout (h : option nat) (s : State) : State :=
  match h with
  | None => s
  | Some n =>
      {| isOpen := isOpen s; timer := timer s; now := now s;
         timeouts := filter (fun t => negb (handle t =? n)%nat) (timeouts s);
         nextHandle := nextHandle s; opened := opened s |}
  end.

Definition setTimer (h : option nat) (s : State) : State :=
  {| isOpen := isOpen s; timer := h; now := now s;
     timeouts := timeouts s; nextHandle := nextHandle s;
     opened := opened s |}.

Definition cancelableClosePortal (s : State) : State :=
  closePortal (clearTimeout (timer s) s).

Definition delayedOpenPortal (delay : nat) (s : State) : State :=
  let '(timeout, s) := setTimeout delay s in
  setTimer (Some timeout) s.

Definition handleKeyPress (key : string) (s : State) : State :=
  if key =? "Escape" then cancelableClosePortal s else s.

(** What [handleBlur] reads of its event and of the page:
    [focusInWrapper] is [wrapperRef?.current?.contains(document.activeElement)],
    [relatedTarget] is [None] for a null [e.relatedTarget] and otherwise
    tells whether the message contains it, [targetIsMessage] is
    [e.target === messageRef.current]. *)
Record BlurEvent := {
  focusInWrapper : bool;
  relatedTarget : option bool;
  targetIsMessage : bool
}.

Definition handleBlur (e : BlurEvent) (s : State) : State :=
  if focusInWrapper e then s
  else if match relatedTarget e with
          | Some inMessage => negb inMessage
          | None => negb (targetIsMessage e)
          end
       then cancelableClosePortal s
       else s.

(** [inMessage] is [messageRef.current?.contains(e.target)]; focusing the
    target and opening the portal both end in [openPortal]. *)
Definition handleClick (inMessage : bool) (s : State) : State :=
  if inMessage then s else openPortal (openPortal s).

(** [d] units of time pass: the timers that are due by then run. *)
Definition elapse (d : nat) (s : State) : State :=
  let t := now s + d in
  let ready := filter (fun e => due e <=? t)%nat (timeouts s) in
  let later := filter (fun e => negb (due e <=? t)%nat) (timeouts s) in
  fold_left (fun s _ => openPortal s) ready
    {| isOpen := isOpen s; timer := timer s; now := t;
       timeouts := later; nextHandle := nextHandle s; opened := opened s |}.

(** The events wired in the returned element, and the passing of time. *)
Inductive Event :=
| MouseOver
| MouseOut (e : BlurEvent)
| Blur (e : BlurEvent)
| Focus
| Click (inMessage : bool)
| KeyPress (key : string)
| Elapse (d : nat).

Definition step (delay : nat) (s : State) (ev : Event) : State :=
  match ev with
  | MouseOver => delayedOpenPortal delay s
  | MouseOut e => handleBlur e s
  | Blur e => handleBlur e s
  | Focus => openPortal s
  | Click inMessage => handleClick inMessage s
  | KeyPress key => handleKeyPress key s
  | Elapse d => elapse d s
  end.

Definition run (delay : nat) (evs : list Event) (s : State) : State :=
  fold_left (step delay) evs s.

(** A mouse-out that leaves the tooltip for the page: nothing is focused in
    the wrapper and the pointer does not move onto the message. *)
Definition leave : BlurEvent :=
  {| focusInWrapper := false; relatedTarget := Some false;
     targetIsMessage := false |}.

(** Whether an event is a dismiss trigger, one whose handler reaches
    [cancelableClosePortal]. *)
Definition dismisses (ev : Event) : bool :=
  match ev with
  | MouseOut e | Blur e =>
      negb (focusInWrapper e)
      && match relatedTarget e with
         | Some inMessage => negb inMessage
         | None => negb (targetIsMessage e)
         end
  | KeyPress key => key =? "Escape"
  | _ => false
  end.

(** The transitions to open so far, counting the one a closed tooltip has
    still to make. *)
Definition openings (s : State) : nat :=
  opened s + (if isOpen s then 0 else 1).

(** The timer that the [i]-th of a run of hover starts queues, counting from
    0 at the state [s]. *)
Definition queued (delay : nat) (s : State) (i : nat) : Timeout :=
  {| handle := nextHandle s + i; due := now s + delay |}.

(** *** The placement of the message *)

(** The two pieces of state that place the message: [adjustedPosition] and
    [positionStyle], which is [None] for null. *)
Record Placement := {
  adjustedPosition : string;
  positionStyle : option PositionStyle.t
}.

(** The initial values of the two [useState] calls: the [position] prop, and
    a style far off the screen. *)
Definition initialPlacement (position : string) : Placement :=
  {| adjustedPosition := position;
     positionStyle :=
       Some {| PositionStyle.left := (-9999999)%float;
               PositionStyle.pointerEvents := None;
               PositionStyle.position := absolute;
               PositionStyle.top := (-9999999)%float |} |}.

Definition setAdjustedPosition (p : string) (v : Placement) : Placement :=
  {| adjustedPosition := p; positionStyle := positionStyle v |}.

Definition setPositionStyle (style : option PositionStyle.t) (v : Placement)
  : Placement :=
  {| adjustedPosition := adjustedPosition v; positionStyle := style |}.

(** The effect on [adjustedPosition], [isOpen] and [followMouse]. *)
Definition positionEffect (window : Window) (isOpen followMouse : bool)
    (wrapperRef : option HTMLElement) (v : Placement) : Placement :=
  if isOpen && negb followMouse
     && match wrapperRef with Some _ => true | None => false end
  then setPositionStyle (getPositionStyle window (adjustedPosition v) wrapperRef) v
  else v.

Definition mouseHandler (pageX pageY : float) (v : Placement) : Placement :=
  setPositionStyle
    (Some {| PositionStyle.left := pageX;
             PositionStyle.pointerEvents := Some "none";
             PositionStyle.position := absolute;
             PositionStyle.top := pageY |}) v.

Definition onUpdateWindowFitment (position : string)
    (fitsWindow : WindowFitment) (v : Placement) : Placement :=
  setAdjustedPosition (adjustForWindow position fitsWindow) v.

(** What reaches the placement: a fitment reported to
    [onUpdateWindowFitment], a mouse move handed to [mouseHandler], and a
    render after which the positioning effect runs. *)
Inductive PlacementEvent :=
| FitmentUpdate (fitsWindow : WindowFitment)
| MouseMove (pageX pageY : float)
| Rendered (window : Window) (isOpen followMouse : bool)
    (wrapperRef : option HTMLElement).

Definition place (position : string) (v : Placement) (ev : PlacementEvent)
  : Placement :=
  match ev with
  | FitmentUpdate fitsWindow => onUpdateWindowFitment position fitsWindow v
  | MouseMove pageX pageY => mouseHandler pageX pageY v
  | Rendered window isOpen followMouse wrapperRef =>
      positionEffect window isOpen followMouse wrapperRef v
  end.

Definition placeAll (position : string) (evs : list PlacementEvent)
    (v : Placement) : Placement :=
  fold_left (place position) evs v.

(** The fitment of the last [FitmentUpdate] of a list of events, after [acc]. *)
Definition lastFitment (acc : option WindowFitment) (evs : list PlacementEvent)
  : option WindowFitment :=
  fold_left (fun acc ev =>
               match ev with
               | FitmentUpdate fitsWindow => Some fitsWindow
               | _ => acc
               end) evs acc.

End Tooltip.

(** ** The contextual menu module *)

Module ContextualMenu.

Record ClientRect := {
  left : float; top : float; width : float; height : float
}.

(** What the menu reads of a node: its bounding rectangle, its
    [offsetParent], and the result of
    [querySelector(".p-contextual-menu__toggle")] on it. *)
#[local] Unset Elimination Schemes.
Inductive HTMLElement := {
  getBoundingClientRect : ClientRect;
  offsetParent : option HTMLElement;
  toggle : option HTMLElement
}.
#[local] Set Elimination Schemes.

Definition getPositionNode (wrapper positionNode : option HTMLElement)
  : option HTMLElement :=
  match positionNode with
  | Some node => Some node
  | None =>
      match wrapper with
      | Some w =>
          match toggle w with
          | Some t => Some t
          | None => Some w
          end
      | None => None
      end
  end.

Definition getPositionNodeVisible (positionNode : option HTMLElement) : bool :=
  match positionNode with
  | None => true
  | Some node =>
      match offsetParent node with
      | None => false
      | Some _ => true
      end
  end.

(** The state of one menu: the [wrapper] ref, the [positionNode] prop, the
    [positionCoords] of [useState], the [isOpen] flag of the portal and the
    calls of [onToggleMenu] so far. *)
Record State := {
  wrapper : option HTMLElement;
  positionNode : option HTMLElement;
  positionCoords : option ClientRect;
  isOpen : bool;
  toggled : list bool
}.

Definition setPositionCoords (c : ClientRect) (s : State) : State :=
  {| wrapper := wrapper s; positionNode := positionNode s;
     positionCoords := Some c; isOpen := isOpen s; toggled := toggled s |}.

Definition updatePositionCoords (s : State) : State :=
  match getPositionNode (wrapper s) (positionNode s) with
  | None => s
  | Some parent => setPositionCoords (getBoundingClientRect parent) s
  end.

(** Modelled from the spec: the close operation of the portal mechanism of
    [usePortal], an external collaborator; closing an open portal calls
    [onClose], which reports [false] to [onToggleMenu]. *)
Definition closePortal (s : State) : State :=
  if isOpen s
  then {| wrapper := wrapper s; positionNode := positionNode s;
          positionCoords := positionCoords s; isOpen := false;
          toggled := toggled s ++ [false] |}
  else s.

Definition onResize (s : State) : State :=
  let parent := getPositionNode (wrapper s) (positionNode s) in
  match parent with
  | Some _ =>
      if negb (getPositionNodeVisible parent)
      then closePortal s
      else updatePositionCoords s
  | None => updatePositionCoords s
  end.

(** Sample pages: a wrapper whose toggle has moved to [movedRect], with the
    toggle laid out ([shownToggle]) or hidden ([hiddenToggle]), and an open
    menu on such a toggle that still holds the rectangle read at opening. *)
Definition movedRect : ClientRect :=
  {| left := 30; top := 40; width := 80; height := 24 |}.

Definition body : HTMLElement :=
  {| getBoundingClientRect := {| left := 0; top := 0; width := 800; height := 600 |};
     offsetParent := None; toggle := None |}.

Definition shownToggle : HTMLElement :=
  {| getBoundingClientRect := movedRect; offsetParent := Some body;
     toggle := None |}.

Definition hiddenToggle : HTMLElement :=
  {| getBoundingClientRect := movedRect; offsetParent := None;
     toggle := None |}.

Definition openOn (t : HTMLElement) : State :=
  {| wrapper := Some {| getBoundingClientRect := movedRect;
                        offsetParent := Some body; toggle := Some t |};
     positionNode := None;
     positionCoords := Some {| left := 10; top := 40; width := 80; height := 24 |};
     isOpen := true;
     toggled := [true] |}.

(** The [onOpen] option given to [usePortal]: the toggle callback is told
    [true] and the coordinates of the position node are read. *)
Definition onOpen (s : State) : State :=
  updatePositionCoords
    {| wrapper := wrapper s; positionNode := positionNode s;
       positionCoords := positionCoords s; isOpen := isOpen s;
       toggled := toggled s ++ [true] |}.

(** Modelled from the spec: the open operation of the portal mechanism of
    [usePortal], an external collaborator; it calls [onOpen] and raises the
    [isOpen] flag. *)
Definition openPortal (s : State) : State :=
  let s := onOpen s in
  {| wrapper := wrapper s; positionNode := positionNode s;
     positionCoords := positionCoords s; isOpen := true;
     toggled := toggled s |}.

(** The [onClick] of the toggle button. *)
Definition onClick (s : State) : State :=
  if negb (isOpen s) then openPortal s else closePortal s.

(** The body of the effect on the [visible] prop; [previousVisible] is
    [None] for the undefined of the first render. *)
Definition visibleEffect (visible : bool) (previousVisible : option bool)
    (s : State) : State :=
  if negb match previousVisible with
          | Some v => Bool.eqb visible v
          | None => false
          end
  then if visible && negb (isOpen s) then openPortal s
       else if negb visible && isOpen s then closePortal s
       else s
  else s.

(** The callback ref of the wrapping element. *)
Definition wrapperRef (node : option HTMLElement) (s : State) : State :=
  let s := {| wrapper := node; positionNode := positionNode s;
              positionCoords := positionCoords s; isOpen := isOpen s;
              toggled := toggled s |} in
  match node with
  | Some _ => updatePositionCoords s
  | None => s
  end.

(** What happens to a menu: a click on the toggle, a run of the effect on
    [visible], a resize of the window (listened to while the menu is open),
    a dismissal by the portal (escape or a click outside), and the mounting
    or unmounting of the wrapper. *)
Inductive Event :=
| ToggleClick
| VisibleEffect (visible : bool) (previousVisible : option bool)
| WindowResize
| PortalDismiss
| WrapperRef (node : option HTMLElement).

Definition step (s : State) (ev : Event) : State :=
  match ev with
  | ToggleClick => onClick s
  | VisibleEffect visible previousVisible =>
      visibleEffect visible previousVisible s
  | WindowResize => if isOpen s then onResize s else s
  | PortalDismiss => closePortal s
  | WrapperRef node => wrapperRef node s
  end.

Definition run (evs : list Event) (s : State) : State :=
  fold_left step evs s.



End ContextualMenu.

(** ** Properties of the position resolver *)

Import JSString.

Example replace_first : replace "right" "left" "top-right" = "top-left".
Proof. reflexivity. Qed.

Example replace_absent : replace "left" "center" "top-right" = "top-right".
Proof. reflexivity. Qed.

Example replace_only_first : replace "a" "b" "aa" = "ba".
Proof. reflexivity. Qed.

Example endsWith_plain_right : endsWith "right" "-right" = false.
Proof. reflexivity. Qed.

Example endsWith_corner : endsWith "btm-right" "-right" = true.
Proof. reflexivity. Qed.

Example startsWith_top : startsWith "top-center" "top" = true.
Proof. reflexivity. Qed.

Example adjustForWindow_left_blocked :
  Tooltip.adjustForWindow "left"
    (Tooltip.mkFit true false true true true true true true true)
  = "top-right".
Proof. reflexivity. Qed.

Example adjustForWindow_collapse :
  Tooltip.adjustForWindow "btm-left"
    (Tooltip.mkFit true true false false true true true true true)
  = "btm-center".
Proof. reflexivity. Qed.

Ltac each_position H :=
  simpl in H; repeat (destruct H as [<- | H]); [.. | contradiction].

Ltac each_fitment f :=
  destruct f as [[ta tb] [ba bb] [ll lr] [rl rr] [[cl cr]]];
  destruct ll, lr, rl, rr, ta, bb, cl, cr.

Ltac pick_member := repeat (first [left; reflexivity | right]).

(** With every flag up no rule rewrites, whatever the string. *)
Lemma adjustForWindow_allFit_string (p : string) (f : Tooltip.WindowFitment) :
  Tooltip.allFit f = true -> Tooltip.adjustForWindow p f = p.
Proof.
  destruct f as [[ta tb] [ba bb] [ll lr] [rl rr] [[cl cr]]].
  destruct ta, tb, ba, bb, ll, lr, rl, rr, cl, cr; intros H;
    try discriminate H.
  unfold Tooltip.adjustForWindow, Tooltip.ruleLeft, Tooltip.ruleRight,
    Tooltip.ruleFlipRight, Tooltip.ruleFlipLeft, Tooltip.ruleFlipTop,
    Tooltip.ruleFlipBtm, Tooltip.ruleCollapse, Tooltip.ruleCenter,
    Tooltip.centerGuard, Tooltip.centerToLeft, Tooltip.centerToRight; simpl.
  destruct (endsWith p "center"); reflexivity.
Qed.

(** C1: for every position of the enumerated set and every fitment whose
    flags are all true, [adjustForWindow] returns the requested position. *)
Theorem adjustForWindow_allFit (p : string) (f : Tooltip.WindowFitment) :
  In p Tooltip.Position -> Tooltip.allFit f = true ->
  Tooltip.adjustForWindow p f = p.
Proof.
  intros _; apply adjustForWindow_allFit_string.
Qed.

Lemma adjustForWindow_allFit_witness :
  Tooltip.adjustForWindow "top-center"
    (Tooltip.mkFit true true true true true true true true true) = "top-center".
Proof.
  apply adjustForWindow_allFit.
  - simpl; pick_member.
  - reflexivity.
Defined.

(** C3: the output of [adjustForWindow] on a position of the enumerated set
    is a position of that set, for every fitment. *)
Theorem adjustForWindow_closed (p : string) (f : Tooltip.WindowFitment) :
  In p Tooltip.Position -> In (Tooltip.adjustForWindow p f) Tooltip.Position.
Proof.
  intros H; each_position H; each_fitment f; vm_compute; pick_member.
Qed.

Lemma adjustForWindow_closed_witness :
  In (Tooltip.adjustForWindow "left"
        (Tooltip.mkFit true false true false true false true true true))
     Tooltip.Position.
Proof.
  apply adjustForWindow_closed; simpl; pick_member.
Defined.

(** C2, as stated, fails: a centered request is sent to the right corner by
    the last rule, and on that output the flip of a right corner fires. *)
Lemma adjustForWindow_not_idempotent :
  let f := Tooltip.mkFit true true true false true true true true false in
  In "top-center" Tooltip.Position
  /\ Tooltip.adjustForWindow "top-center" f = "top-right"
  /\ Tooltip.adjustForWindow (Tooltip.adjustForWindow "top-center" f) f
     = "top-left"
  /\ Tooltip.adjustForWindow (Tooltip.adjustForWindow "top-center" f) f
     <> Tooltip.adjustForWindow "top-center" f.
Proof.
  cbv zeta; repeat split.
  - simpl; pick_member.
  - vm_compute; discriminate.
Qed.

(** C2, amended: on the enumerated positions a second run of
    [adjustForWindow] with the same fitment changes its output exactly when
    the request is centered and the fitment is one of
    [flipsAfterCentering]. *)
Theorem adjustForWindow_idempotent_iff (p : string) (f : Tooltip.WindowFitment) :
  In p Tooltip.Position ->
  (Tooltip.adjustForWindow (Tooltip.adjustForWindow p f) f
   = Tooltip.adjustForWindow p f
   <-> endsWith p "center" && Tooltip.flipsAfterCentering f = false).
Proof.
  intros H; each_position H; each_fitment f; vm_compute;
    split; intros E; first [reflexivity | discriminate E].
Qed.

Lemma adjustForWindow_idempotent_iff_witness :
  let f := Tooltip.mkFit true true false false true true true true false in
  Tooltip.adjustForWindow (Tooltip.adjustForWindow "top-right" f) f
  = Tooltip.adjustForWindow "top-right" f.
Proof.
  cbv zeta.
  apply (proj2 (adjustForWindow_idempotent_iff "top-right" _
                  ltac:(simpl; pick_member))).
  reflexivity.
Defined.

(** X6: A third run never changes the output of the second. *)
Lemma adjustForWindow_settles (p : string) (f : Tooltip.WindowFitment) :
  In p Tooltip.Position ->
  let q := Tooltip.adjustForWindow (Tooltip.adjustForWindow p f) f in
  Tooltip.adjustForWindow q f = q.
Proof.
  intros H; each_position H; each_fitment f; vm_compute; reflexivity.
Qed.

(** ** The last rule: centered positions *)

(** C4, as stated, fails: when centering fits on the left and not on the
    right, the suffix becomes "right", the side that does not fit. *)
Lemma ruleCenter_not_fitting_side :
  let f := Tooltip.mkFit true true true true true true true true false in
  endsWith "top-center" "center" = true
  /\ Tooltip.fitsLeft (Tooltip.fitsCentered (Tooltip.fromCenter f)) = true
  /\ Tooltip.fitsRight (Tooltip.fitsCentered (Tooltip.fromCenter f)) = false
  /\ Tooltip.ruleCenter f "top-center" = "top-right"
  /\ Tooltip.ruleCenter f "top-center" <> "top-left"
  /\ Tooltip.adjustForWindow "top-center" f = "top-right".
Proof.
  cbv zeta; repeat split; vm_compute; discriminate.
Qed.

(** C4, amended: on a working position that ends in "center", when centering
    fits on exactly one side, the last rule replaces the first "center" by
    the name of the side that does not fit: by "right" when it fits on the
    left only, by "left" when it fits on the right only.  On "top-center"
    and "btm-center" the first "center" is the suffix. *)
Theorem ruleCenter_one_side (f : Tooltip.WindowFitment) (w : string) :
  endsWith w "center" = true ->
  let c := Tooltip.fitsCentered (Tooltip.fromCenter f) in
  (Tooltip.fitsLeft c = true -> Tooltip.fitsRight c = false ->
   Tooltip.ruleCenter f w = replace "center" "right" w)
  /\ (Tooltip.fitsRight c = true -> Tooltip.fitsLeft c = false ->
      Tooltip.ruleCenter f w = replace "center" "left" w)
  /\ replace "center" "right" "top-center" = "top-right"
  /\ replace "center" "right" "btm-center" = "btm-right"
  /\ replace "center" "left" "top-center" = "top-left"
  /\ replace "center" "left" "btm-center" = "btm-left".
Proof.
  intros E c; unfold Tooltip.ruleCenter, Tooltip.centerGuard,
    Tooltip.centerToLeft, Tooltip.centerToRight; fold c; rewrite E.
  repeat split; try reflexivity; intros -> ->; reflexivity.
Qed.

Lemma ruleCenter_one_side_witness :
  Tooltip.ruleCenter
    (Tooltip.mkFit true true true true true true true false true) "btm-center"
  = "btm-left".
Proof.
  refine (proj1 (proj2 (ruleCenter_one_side
    (Tooltip.mkFit true true true true true true true false true)
    "btm-center" _)) _ _); reflexivity.
Defined.

(** The last rule as a chain of alternatives: since the guard asks for one
    side to fit, the second replacement never follows the first. *)
Lemma ruleCenter_chain (f : Tooltip.WindowFitment) (w : string) :
  Tooltip.ruleCenter f w =
  if Tooltip.firesCenterToRight f w then replace "center" "right" w
  else if Tooltip.firesCenterToLeft f w then replace "center" "left" w
  else w.
Proof.
  unfold Tooltip.ruleCenter, Tooltip.firesCenterToRight,
    Tooltip.firesCenterToLeft, Tooltip.centerGuard, Tooltip.centerToLeft,
    Tooltip.centerToRight.
  destruct (endsWith w "center"),
    (Tooltip.fitsRight (Tooltip.fitsCentered (Tooltip.fromCenter f))),
    (Tooltip.fitsLeft (Tooltip.fitsCentered (Tooltip.fromCenter f)));
    reflexivity.
Qed.

(** C10: in the last rule the two replacements never both run, for every
    fitment and working position, so the output is the input, or the input
    with one replacement of "center". *)
Theorem ruleCenter_at_most_one (f : Tooltip.WindowFitment) (w : string) :
  Tooltip.firesCenterToRight f w && Tooltip.firesCenterToLeft f w = false
  /\ (Tooltip.ruleCenter f w = w
      \/ Tooltip.ruleCenter f w = replace "center" "right" w
      \/ Tooltip.ruleCenter f w = replace "center" "left" w).
Proof.
  rewrite ruleCenter_chain.
  unfold Tooltip.firesCenterToRight, Tooltip.firesCenterToLeft,
    Tooltip.centerGuard.
  destruct (endsWith w "center"),
    (Tooltip.fitsRight (Tooltip.fitsCentered (Tooltip.fromCenter f))),
    (Tooltip.fitsLeft (Tooltip.fitsCentered (Tooltip.fromCenter f)));
    simpl; auto.
Qed.

(** ** Values outside the enumerated set *)

(** C5, as stated, fails: the bare "center" is not in the enumerated set
    and is rewritten when centering fits on one side only. *)
Lemma adjustForWindow_center_rewritten :
  let f := Tooltip.mkFit true true true true true true true true false in
  ~ In "center" Tooltip.Position
  /\ Tooltip.adjustForWindow "center" f = "right"
  /\ Tooltip.adjustForWindow "center" f <> "center".
Proof.
  cbv zeta; repeat split.
  - simpl; intros H; repeat (destruct H as [H | H]; [discriminate H |]);
      exact H.
  - vm_compute; discriminate.
Qed.

(** C5, amended: a value that no rule matches (it is not "left" or "right",
    does not end in "-left", "-right" or "center" and does not start with
    "top" or "btm") is returned as it is, for every fitment. *)
Theorem adjustForWindow_unmatched (p : string) (f : Tooltip.WindowFitment) :
  p <> "left" -> p <> "right" ->
  endsWith p "-left" = false -> endsWith p "-right" = false ->
  startsWith p "top" = false -> startsWith p "btm" = false ->
  endsWith p "center" = false ->
  Tooltip.adjustForWindow p f = p.
Proof.
  intros Hl Hr El Er St Sb Ec.
  apply String.eqb_neq in Hl, Hr.
  unfold Tooltip.adjustForWindow, Tooltip.ruleLeft, Tooltip.ruleRight,
    Tooltip.ruleFlipRight, Tooltip.ruleFlipLeft, Tooltip.ruleFlipTop,
    Tooltip.ruleFlipBtm, Tooltip.ruleCollapse, Tooltip.ruleCenter,
    Tooltip.centerGuard.
  cbv zeta.
  rewrite Hl, andb_false_r, Hr, andb_false_r, Er, andb_false_r, El,
    andb_false_r, St, andb_false_r, Sb, andb_false_r, El, Er, andb_false_r,
    Ec.
  reflexivity.
Qed.

Lemma adjustForWindow_unmatched_witness :
  Tooltip.adjustForWindow "middle"
    (Tooltip.mkFit false false false false false false false false false)
  = "middle".
Proof.
  apply adjustForWindow_unmatched; first [discriminate | reflexivity].
Defined.

(** What the resolver does with the bare "center" of the menus. *)
Lemma adjustForWindow_center (f : Tooltip.WindowFitment) :
  let c := Tooltip.fitsCentered (Tooltip.fromCenter f) in
  Tooltip.adjustForWindow "center" f =
  if Bool.eqb (Tooltip.fitsLeft c) (Tooltip.fitsRight c) then "center"
  else if Tooltip.fitsLeft c then "right" else "left".
Proof.
  each_fitment f; reflexivity.
Qed.

(** ** Properties of the geometry reader *)

(** C7: on the rectangle x 10, y 20, width 100, height 50 with no scroll,
    "top-left" gives left 10 and top 20 and "btm-center" gives left 60 and
    top 70, both with position absolute. *)
Theorem getPositionStyle_examples :
  let node := {| Tooltip.getBoundingClientRect :=
                   {| Tooltip.x := 10; Tooltip.y := 20;
                      Tooltip.height := 50; Tooltip.width := 100 |} |} in
  let window := {| Tooltip.scrollX := 0; Tooltip.scrollY := 0 |} in
  Tooltip.getPositionStyle window "top-left" (Some node)
  = Some {| Tooltip.PositionStyle.left := 10;
            Tooltip.PositionStyle.pointerEvents := None;
            Tooltip.PositionStyle.position := Tooltip.absolute;
            Tooltip.PositionStyle.top := 20 |}
  /\ Tooltip.getPositionStyle window "btm-center" (Some node)
     = Some {| Tooltip.PositionStyle.left := 60;
               Tooltip.PositionStyle.pointerEvents := None;
               Tooltip.PositionStyle.position := Tooltip.absolute;
               Tooltip.PositionStyle.top := 70 |}.
Proof.
  cbv zeta; split; reflexivity.
Qed.

(** The style of a mounted node is built with position absolute. *)
Lemma getPositionStyle_mounted (window : Tooltip.Window) (pos : string)
    (node : Tooltip.HTMLElement) :
  exists l t,
    Tooltip.getPositionStyle window pos (Some node)
    = Some {| Tooltip.PositionStyle.left := l;
              Tooltip.PositionStyle.pointerEvents := None;
              Tooltip.PositionStyle.position := Tooltip.absolute;
              Tooltip.PositionStyle.top := t |}.
Proof.
  unfold Tooltip.getPositionStyle; cbv zeta.
  repeat match goal with
         | |- context [if ?b then _ else _] => destruct b
         end; eexists; eexists; reflexivity.
Qed.

(** C8: for every position, [getPositionStyle] returns null exactly when
    there is no wrapper node, and a style it returns declares position
    absolute. *)
Theorem getPositionStyle_null_iff (window : Tooltip.Window) (pos : string)
    (wrapperNode : option Tooltip.HTMLElement) :
  (Tooltip.getPositionStyle window pos wrapperNode = None
   <-> wrapperNode = None)
  /\ (forall style,
        Tooltip.getPositionStyle window pos wrapperNode = Some style ->
        Tooltip.PositionStyle.position style = Tooltip.absolute).
Proof.
  destruct wrapperNode as [node |].
  - destruct (getPositionStyle_mounted window pos node) as (l & t & E).
    rewrite E; split.
    + split; intros H; discriminate H.
    + intros style H; injection H as <-; reflexivity.
  - split.
    + split; reflexivity.
    + intros style H; discriminate H.
Qed.

Lemma getPositionStyle_null_iff_witness :
  let window := {| Tooltip.scrollX := 0; Tooltip.scrollY := 0 |} in
  let node := {| Tooltip.getBoundingClientRect :=
                   {| Tooltip.x := 10; Tooltip.y := 20;
                      Tooltip.height := 50; Tooltip.width := 100 |} |} in
  let style := {| Tooltip.PositionStyle.left := 110;
                  Tooltip.PositionStyle.pointerEvents := None;
                  Tooltip.PositionStyle.position := Tooltip.absolute;
                  Tooltip.PositionStyle.top := 45 |} in
  Tooltip.getPositionStyle window "right" (Some node) = Some style
  /\ Tooltip.PositionStyle.position style = Tooltip.absolute.
Proof.
  cbv zeta; split; [reflexivity |].
  apply (proj2 (getPositionStyle_null_iff
                  {| Tooltip.scrollX := 0; Tooltip.scrollY := 0 |} "right"
                  (Some {| Tooltip.getBoundingClientRect :=
                             {| Tooltip.x := 10; Tooltip.y := 20;
                                Tooltip.height := 50;
                                Tooltip.width := 100 |} |}))).
  reflexivity.
Defined.

(** ** The resize handler of the menu *)

(** C9: on a resize while the menu is open, a position node whose
    [offsetParent] is null closes the menu, and a position node with an
    [offsetParent] has its coordinates read again and the menu stays open. *)
Theorem onResize_closes_or_updates (s : ContextualMenu.State)
    (parent : ContextualMenu.HTMLElement) :
  ContextualMenu.isOpen s = true ->
  ContextualMenu.getPositionNode (ContextualMenu.wrapper s)
    (ContextualMenu.positionNode s) = Some parent ->
  (ContextualMenu.offsetParent parent = None ->
   ContextualMenu.isOpen (ContextualMenu.onResize s) = false)
  /\ (ContextualMenu.offsetParent parent <> None ->
      ContextualMenu.isOpen (ContextualMenu.onResize s) = true
      /\ ContextualMenu.toggled (ContextualMenu.onResize s)
         = ContextualMenu.toggled s
      /\ ContextualMenu.positionCoords (ContextualMenu.onResize s)
         = Some (ContextualMenu.getBoundingClientRect parent)).
Proof.
  intros Hopen Hnode.
  unfold ContextualMenu.onResize, ContextualMenu.updatePositionCoords,
    ContextualMenu.closePortal, ContextualMenu.getPositionNodeVisible.
  rewrite Hnode, Hopen.
  destruct (ContextualMenu.offsetParent parent) as [o |]; simpl; split.
  - intros H; discriminate H.
  - intros _; repeat split; exact Hopen.
  - reflexivity.
  - intros H; contradiction H; reflexivity.
Qed.

Lemma onResize_closes_or_updates_witness :
  ContextualMenu.isOpen
    (ContextualMenu.onResize (ContextualMenu.openOn ContextualMenu.hiddenToggle))
  = false
  /\ ContextualMenu.positionCoords
       (ContextualMenu.onResize
          (ContextualMenu.openOn ContextualMenu.shownToggle))
     = Some ContextualMenu.movedRect.
Proof.
  split.
  - refine (proj1 (onResize_closes_or_updates
      (ContextualMenu.openOn ContextualMenu.hiddenToggle)
      ContextualMenu.hiddenToggle _ _) _); reflexivity.
  - refine (proj2 (proj2 (proj2 (onResize_closes_or_updates
      (ContextualMenu.openOn ContextualMenu.shownToggle)
      ContextualMenu.shownToggle _ _) _))); first [reflexivity | discriminate].
Defined.

(** ** The delayed opening of the tooltip *)

Section Hover.

Variable delay : nat.

Lemma step_dismiss (s : Tooltip.State) (ev : Tooltip.Event) :
  Tooltip.dismisses ev = true ->
  Tooltip.step delay s ev = Tooltip.cancelableClosePortal s.
Proof.
  destruct ev as [| e | e | | m | key | d]; simpl; try discriminate;
    unfold Tooltip.handleBlur, Tooltip.handleKeyPress.
  - destruct (Tooltip.focusInWrapper e); simpl; [discriminate |].
    intros ->; reflexivity.
  - destruct (Tooltip.focusInWrapper e); simpl; [discriminate |].
    intros ->; reflexivity.
  - intros ->; reflexivity.
Qed.

Lemma openings_openPortal (s : Tooltip.State) :
  Tooltip.openings (Tooltip.openPortal s) = Tooltip.openings s.
Proof.
  unfold Tooltip.openings, Tooltip.openPortal.
  destruct (Tooltip.isOpen s) eqn:E; simpl; [rewrite E; reflexivity | lia].
Qed.

Lemma openings_fired (A : Type) (ready : list A) (s : Tooltip.State) :
  Tooltip.openings (fold_left (fun s _ => Tooltip.openPortal s) ready s)
  = Tooltip.openings s.
Proof.
  revert s; induction ready as [| t ready IH]; intros s; simpl.
  - reflexivity.
  - rewrite IH; apply openings_openPortal.
Qed.

(** An event that is no dismiss trigger keeps the count: it opens a closed
    tooltip or leaves the flag as it is. *)
Lemma openings_step (s : Tooltip.State) (ev : Tooltip.Event) :
  Tooltip.dismisses ev = false ->
  Tooltip.openings (Tooltip.step delay s ev) = Tooltip.openings s.
Proof.
  destruct ev as [| e | e | | m | key | d]; simpl;
    unfold Tooltip.handleBlur, Tooltip.handleKeyPress, Tooltip.handleClick.
  - reflexivity.
  - destruct (Tooltip.focusInWrapper e); simpl; [reflexivity |].
    intros ->; reflexivity.
  - destruct (Tooltip.focusInWrapper e); simpl; [reflexivity |].
    intros ->; reflexivity.
  - intros _; apply openings_openPortal.
  - intros _; destruct m; [reflexivity |].
    rewrite !openings_openPortal; reflexivity.
  - intros ->; reflexivity.
  - intros _; unfold Tooltip.elapse; rewrite openings_fired; reflexivity.
Qed.

(** X10: Without a dismiss trigger a closed tooltip makes at most one transition
    to open, however many times the hover starts: exactly one if it ends
    open, none if it ends closed. *)
Lemma run_without_dismiss (evs : list Tooltip.Event) (s : Tooltip.State) :
  forallb (fun ev => negb (Tooltip.dismisses ev)) evs = true ->
  Tooltip.openings (Tooltip.run delay evs s) = Tooltip.openings s.
Proof.
  unfold Tooltip.run; revert s; induction evs as [| ev evs IH]; intros s H.
  - reflexivity.
  - simpl in H; apply andb_prop in H; destruct H as [Hev H]; simpl.
    rewrite IH by exact H.
    apply openings_step, negb_true_iff, Hev.
Qed.

(** X11: One hover start from a closed tooltip with no timer queued, waited out:
    the tooltip opens, once, and stays so while time passes. *)
Lemma hover_waited_opens_once (s : Tooltip.State) (d n : nat) :
  Tooltip.isOpen s = false -> Tooltip.timeouts s = [] -> delay <= d ->
  let s' := Tooltip.run delay
              [Tooltip.MouseOver; Tooltip.Elapse d; Tooltip.Elapse n] s in
  Tooltip.isOpen s' = true /\ Tooltip.opened s' = S (Tooltip.opened s)
  /\ Tooltip.timeouts s' = [].
Proof.
  intros Hc Hq Hd; cbv zeta.
  unfold Tooltip.run; simpl.
  unfold Tooltip.delayedOpenPortal, Tooltip.setTimeout, Tooltip.setTimer,
    Tooltip.elapse; simpl.
  rewrite Hq; simpl.
  assert (E : Nat.leb (Tooltip.now s + delay) (Tooltip.now s + d) = true)
    by (apply Nat.leb_le; lia).
  rewrite E; simpl.
  unfold Tooltip.openPortal; simpl; rewrite Hc; simpl.
  repeat split.
Qed.

(** X12: One hover start from a closed tooltip with no timer queued, dismissed
    before the delay has passed: the timer is cleared and the tooltip does
    not open, however long one waits. *)
Lemma hover_dismissed_never_opens (s : Tooltip.State) (ev : Tooltip.Event)
    (d n : nat) :
  Tooltip.isOpen s = false -> Tooltip.timeouts s = [] -> d < delay ->
  Tooltip.dismisses ev = true ->
  let s' := Tooltip.run delay
              [Tooltip.MouseOver; Tooltip.Elapse d; ev; Tooltip.Elapse n] s in
  Tooltip.isOpen s' = false /\ Tooltip.opened s' = Tooltip.opened s
  /\ Tooltip.timeouts s' = [].
Proof.
  intros Hc Hq Hd Hev; cbv zeta.
  unfold Tooltip.run; simpl.
  rewrite (step_dismiss _ ev Hev).
  unfold Tooltip.delayedOpenPortal, Tooltip.setTimeout, Tooltip.setTimer,
    Tooltip.elapse, Tooltip.cancelableClosePortal, Tooltip.clearTimeout,
    Tooltip.closePortal; simpl.
  rewrite Hq; simpl.
  assert (E : Nat.leb (Tooltip.now s + delay) (Tooltip.now s + d) = false)
    by (apply Nat.leb_gt; lia).
  rewrite E; simpl.
  rewrite Nat.eqb_refl; simpl.
  repeat split.
Qed.

End Hover.

(** C6 fails on the code when the hover starts twice before the dismiss:
    with the delay 350, hover starts at times 0 and 100 queue timers 1 and 2,
    the mouse-out at time 200 clears timer 2 only, and timer 1 opens the
    tooltip at time 350 although the pointer has left. *)
Theorem hover_twice_dismissed_opens :
  let evs := [Tooltip.MouseOver; Tooltip.Elapse 100; Tooltip.MouseOver;
              Tooltip.Elapse 100; Tooltip.MouseOut Tooltip.leave] in
  let dismissed := Tooltip.run 350 evs Tooltip.initialState in
  let s' := Tooltip.run 350 (evs ++ [Tooltip.Elapse 150]) Tooltip.initialState in
  forallb (fun k => negb (Tooltip.isOpen
             (Tooltip.run 350 (firstn k evs) Tooltip.initialState)))
          (seq 0 6) = true
  /\ Tooltip.dismisses (Tooltip.MouseOut Tooltip.leave) = true
  /\ Tooltip.now dismissed = 200
  /\ Tooltip.timeouts dismissed
     = [{| Tooltip.handle := 1; Tooltip.due := 350 |}]
  /\ Tooltip.isOpen s' = true
  /\ Tooltip.opened s' = 1.
Proof.
  cbv zeta; repeat split.
Qed.

(** ** Further properties of the position resolver *)

(** X1: The vertical outcome of a top or bottom request: a top request moves
    below only when it does not fit above and fits below; a bottom request
    moves above whenever it does not fit below. *)
Theorem adjustForWindow_vertical (p : string) (f : Tooltip.WindowFitment) :
  In p Tooltip.Position ->
  startsWith p "top" || startsWith p "btm" = true ->
  let above := Tooltip.fitsAbove (Tooltip.fromTop f) in
  let below := Tooltip.fitsBelow (Tooltip.fromBottom f) in
  let q := Tooltip.adjustForWindow p f in
  startsWith q "btm"
  = (if startsWith p "top" then negb above && below else below)
  /\ startsWith q "top" = negb (startsWith q "btm").
Proof.
  intros H R; each_position H; try discriminate R; clear R;
    each_fitment f; vm_compute; split; reflexivity.
Qed.

Lemma adjustForWindow_vertical_witness :
  let f := Tooltip.mkFit true true true true true false false true true in
  startsWith (Tooltip.adjustForWindow "btm-left" f) "btm" = false
  /\ startsWith (Tooltip.adjustForWindow "btm-left" f) "top" = true.
Proof.
  cbv zeta.
  apply (adjustForWindow_vertical "btm-left"
           (Tooltip.mkFit true true true true true false false true true));
    [simpl; pick_member | reflexivity].
Defined.

(** X2: The resolver returns the plain "left" exactly when it is requested and
    fits on the left, and the plain "right" exactly when it is requested and
    fits on the right. *)
Theorem adjustForWindow_plain_iff (p : string) (f : Tooltip.WindowFitment) :
  In p Tooltip.Position ->
  (Tooltip.adjustForWindow p f = "left"
   <-> p = "left" /\ Tooltip.fitsLeft (Tooltip.fromLeft f) = true)
  /\ (Tooltip.adjustForWindow p f = "right"
      <-> p = "right" /\ Tooltip.fitsRight (Tooltip.fromRight f) = true).
Proof.
  intros H; each_position H; each_fitment f;
    split;
    (split;
     [ intros E; first [vm_compute in E; discriminate E | split; reflexivity]
     | intros [E1 E2];
       first [discriminate E1 | discriminate E2 | vm_compute; reflexivity] ]).
Qed.

Lemma adjustForWindow_plain_iff_witness :
  Tooltip.adjustForWindow "right"
    (Tooltip.mkFit false false false false true false false false false)
  = "right".
Proof.
  apply (proj2 (proj2 (adjustForWindow_plain_iff "right"
    (Tooltip.mkFit false false false false true false false false false)
    ltac:(simpl; pick_member)))).
  split; reflexivity.
Defined.

(** X3: A plain request that does not fit is resolved as the upper corner of the
    other side: "left" as "top-right", "right" as "top-left". *)
Theorem adjustForWindow_plain_blocked (f : Tooltip.WindowFitment) :
  (Tooltip.fitsLeft (Tooltip.fromLeft f) = false ->
   Tooltip.adjustForWindow "left" f = Tooltip.adjustForWindow "top-right" f)
  /\ (Tooltip.fitsRight (Tooltip.fromRight f) = false ->
      Tooltip.adjustForWindow "right" f = Tooltip.adjustForWindow "top-left" f).
Proof.
  each_fitment f; split; intros E; first [discriminate E | reflexivity].
Qed.

Lemma adjustForWindow_plain_blocked_witness :
  let f := Tooltip.mkFit true false true true true false true true true in
  Tooltip.adjustForWindow "left" f = Tooltip.adjustForWindow "top-right" f.
Proof.
  cbv zeta.
  apply (proj1 (adjustForWindow_plain_blocked
    (Tooltip.mkFit true false true true true false true true true))).
  reflexivity.
Defined.

(** X4: The side of a corner request: it is kept when the overlay fits from that
    corner, and changed to the other side when it fits from the other corner
    only. *)
Theorem adjustForWindow_corner_side (p : string) (f : Tooltip.WindowFitment) :
  In p Tooltip.Position ->
  let fromLeftFits := Tooltip.fitsRight (Tooltip.fromLeft f) in
  let fromRightFits := Tooltip.fitsLeft (Tooltip.fromRight f) in
  let q := Tooltip.adjustForWindow p f in
  (endsWith p "-left" = true ->
   (fromLeftFits = true -> endsWith q "-left" = true)
   /\ (fromLeftFits = false -> fromRightFits = true ->
       endsWith q "-right" = true))
  /\ (endsWith p "-right" = true ->
      (fromRightFits = true -> endsWith q "-right" = true)
      /\ (fromRightFits = false -> fromLeftFits = true ->
          endsWith q "-left" = true)).
Proof.
  intros H; each_position H; each_fitment f; vm_compute;
    split; intros E; try discriminate E; split; intros E1;
    try discriminate E1; try reflexivity; intros E2; discriminate E2.
Qed.

Lemma adjustForWindow_corner_side_witness :
  let f := Tooltip.mkFit true true false true true true true true true in
  endsWith (Tooltip.adjustForWindow "btm-left" f) "-right" = true.
Proof.
  cbv zeta.
  apply (proj1 (adjustForWindow_corner_side "btm-left"
    (Tooltip.mkFit true true false true true true true true true)
    ltac:(simpl; pick_member))); reflexivity.
Defined.

(** X5: When the overlay fits from neither corner, the two corner requests of a
    row are resolved as the centered request of that row. *)
Theorem adjustForWindow_neither_side (f : Tooltip.WindowFitment) :
  Tooltip.fitsRight (Tooltip.fromLeft f) = false ->
  Tooltip.fitsLeft (Tooltip.fromRight f) = false ->
  Tooltip.adjustForWindow "top-left" f = Tooltip.adjustForWindow "top-center" f
  /\ Tooltip.adjustForWindow "top-right" f
     = Tooltip.adjustForWindow "top-center" f
  /\ Tooltip.adjustForWindow "btm-left" f
     = Tooltip.adjustForWindow "btm-center" f
  /\ Tooltip.adjustForWindow "btm-right" f
     = Tooltip.adjustForWindow "btm-center" f.
Proof.
  each_fitment f; intros E1 E2; try discriminate E1; try discriminate E2;
    repeat split.
Qed.

Lemma adjustForWindow_neither_side_witness :
  let f := Tooltip.mkFit true true false false true true true true false in
  Tooltip.adjustForWindow "top-left" f = Tooltip.adjustForWindow "top-center" f.
Proof.
  cbv zeta.
  apply (adjustForWindow_neither_side
    (Tooltip.mkFit true true false false true true true true false));
    reflexivity.
Defined.

Lemma adjustForWindow_settles_witness :
  let f := Tooltip.mkFit true true true false true true true true false in
  Tooltip.adjustForWindow
    (Tooltip.adjustForWindow (Tooltip.adjustForWindow "top-center" f) f) f
  = Tooltip.adjustForWindow (Tooltip.adjustForWindow "top-center" f) f.
Proof.
  cbv zeta.
  apply (adjustForWindow_settles "top-center"
    (Tooltip.mkFit true true true false true true true true false)).
  simpl; pick_member.
Defined.

(** ** Further properties of the geometry reader and of the placement *)

(** X7: A position outside the enumerated set falls to the default case of the
    switch and is placed like "top-left". *)
Theorem getPositionStyle_default (window : Tooltip.Window) (pos : string)
    (wrapperNode : option Tooltip.HTMLElement) :
  ~ In pos Tooltip.Position ->
  Tooltip.getPositionStyle window pos wrapperNode
  = Tooltip.getPositionStyle window "top-left" wrapperNode.
Proof.
  intros H.
  assert (N : forall q, In q Tooltip.Position -> (pos =? q) = false).
  { intros q Hq; apply String.eqb_neq; intros ->; exact (H Hq). }
  unfold Tooltip.getPositionStyle.
  destruct wrapperNode as [node |]; [| reflexivity].
  cbv zeta.
  rewrite !N by (simpl; pick_member).
  reflexivity.
Qed.

Lemma getPositionStyle_default_witness :
  let window := {| Tooltip.scrollX := 0; Tooltip.scrollY := 0 |} in
  let node := {| Tooltip.getBoundingClientRect :=
                   {| Tooltip.x := 10; Tooltip.y := 20;
                      Tooltip.height := 50; Tooltip.width := 100 |} |} in
  Tooltip.getPositionStyle window "center" (Some node)
  = Tooltip.getPositionStyle window "top-left" (Some node).
Proof.
  cbv zeta; apply getPositionStyle_default.
  simpl; intros H; repeat (destruct H as [H | H]; [discriminate H |]);
    exact H.
Defined.

Lemma adjustedPosition_placeAll (position d : string)
    (evs : list Tooltip.PlacementEvent) (v : Tooltip.Placement)
    (acc : option Tooltip.WindowFitment) :
  Tooltip.adjustedPosition v
  = match acc with
    | Some f => Tooltip.adjustForWindow position f
    | None => d
    end ->
  Tooltip.adjustedPosition (Tooltip.placeAll position evs v)
  = match Tooltip.lastFitment acc evs with
    | Some f => Tooltip.adjustForWindow position f
    | None => d
    end.
Proof.
  unfold Tooltip.placeAll, Tooltip.lastFitment.
  revert v acc; induction evs as [| ev evs IH]; intros v acc H; simpl.
  - exact H.
  - apply IH.
    destruct ev as [f | px py | w o fm wr]; simpl.
    + reflexivity.
    + exact H.
    + unfold Tooltip.positionEffect.
      destruct (o && negb fm && match wr with Some _ => true | None => false end);
        exact H.
Qed.

(** X8: The adjusted position is computed from the [position] prop each time:
    after any events it is the resolver's output for the last fitment
    reported, and the prop itself while none was reported. *)
Theorem adjustedPosition_last_fitment (position : string)
    (evs : list Tooltip.PlacementEvent) :
  Tooltip.adjustedPosition
    (Tooltip.placeAll position evs (Tooltip.initialPlacement position))
  = match Tooltip.lastFitment None evs with
    | Some f => Tooltip.adjustForWindow position f
    | None => position
    end.
Proof.
  apply (adjustedPosition_placeAll position position evs
           (Tooltip.initialPlacement position) None).
  reflexivity.
Qed.

(** X9: The style of the message is never null and always declares position
    absolute, whatever fitments, mouse moves and renders occur: the effect
    asks [getPositionStyle] for a style only with a wrapper node at hand. *)
Theorem positionStyle_absolute (position : string)
    (evs : list Tooltip.PlacementEvent) :
  exists style,
    Tooltip.positionStyle
      (Tooltip.placeAll position evs (Tooltip.initialPlacement position))
    = Some style
    /\ Tooltip.PositionStyle.position style = Tooltip.absolute.
Proof.
  unfold Tooltip.placeAll.
  assert (G : forall v,
    (exists style, Tooltip.positionStyle v = Some style
       /\ Tooltip.PositionStyle.position style = Tooltip.absolute) ->
    exists style,
      Tooltip.positionStyle (fold_left (Tooltip.place position) evs v)
      = Some style
      /\ Tooltip.PositionStyle.position style = Tooltip.absolute).
  { induction evs as [| ev evs IH]; intros v Hv; simpl; [exact Hv |].
    apply IH.
    destruct ev as [f | px py | w o fm wr]; simpl.
    - exact Hv.
    - eexists; split; reflexivity.
    - unfold Tooltip.positionEffect.
      destruct o, fm, wr as [node |]; try exact Hv.
      destruct (getPositionStyle_mounted w (Tooltip.adjustedPosition v) node)
        as (l & t & E).
      cbv [andb negb Tooltip.setPositionStyle Tooltip.positionStyle].
      rewrite E; eexists; split; reflexivity. }
  apply G; eexists; split; reflexivity.
Qed.

(** ** Further properties of the delayed opening *)

Lemma run_without_dismiss_witness :
  Tooltip.openings
    (Tooltip.run 350
       [Tooltip.MouseOver; Tooltip.Elapse 100; Tooltip.MouseOver;
        Tooltip.Focus; Tooltip.Elapse 400; Tooltip.Click false]
       Tooltip.initialState)
  = Tooltip.openings Tooltip.initialState.
Proof.
  apply run_without_dismiss; reflexivity.
Defined.

Lemma hover_waited_opens_once_witness :
  let s' := Tooltip.run 350
              [Tooltip.MouseOver; Tooltip.Elapse 350; Tooltip.Elapse 1000]
              Tooltip.initialState in
  Tooltip.isOpen s' = true /\ Tooltip.opened s' = 1 /\ Tooltip.timeouts s' = [].
Proof.
  apply (hover_waited_opens_once 350 Tooltip.initialState 350 1000);
    first [reflexivity | lia].
Defined.

Lemma hover_dismissed_never_opens_witness :
  let s' := Tooltip.run 350
              [Tooltip.MouseOver; Tooltip.Elapse 349;
               Tooltip.KeyPress "Escape"; Tooltip.Elapse 1000]
              Tooltip.initialState in
  Tooltip.isOpen s' = false /\ Tooltip.opened s' = 0
  /\ Tooltip.timeouts s' = [].
Proof.
  apply (hover_dismissed_never_opens 350 Tooltip.initialState
           (Tooltip.KeyPress "Escape") 349 1000);
    first [reflexivity | lia].
Defined.

Lemma filter_twice (A : Type) (keep : A -> bool) (l : list A) :
  filter keep (filter keep l) = filter keep l.
Proof.
  induction l as [| a l IH]; simpl; [reflexivity |].
  destruct (keep a) eqn:E; simpl; [rewrite E, IH |]; auto.
Qed.

(** X14: Dismissing is idempotent: a second dismissal changes nothing, also when
    the timer has fired or was cleared already. *)
Theorem cancelableClosePortal_idempotent (s : Tooltip.State) :
  Tooltip.cancelableClosePortal (Tooltip.cancelableClosePortal s)
  = Tooltip.cancelableClosePortal s.
Proof.
  unfold Tooltip.cancelableClosePortal, Tooltip.closePortal,
    Tooltip.clearTimeout.
  destruct (Tooltip.timer s) as [h |] eqn:E; simpl; rewrite ?E; simpl;
    [rewrite filter_twice |]; reflexivity.
Qed.


Section Hovers.

Variable delay : nat.


Lemma hover_repeated (n : nat) (s : Tooltip.State) :
  let s' := Tooltip.run delay (repeat Tooltip.MouseOver n) s in
  Tooltip.timeouts s' = (Tooltip.timeouts s ++ map (Tooltip.queued delay s) (seq 0 n))%list
  /\ Tooltip.now s' = Tooltip.now s
  /\ Tooltip.isOpen s' = Tooltip.isOpen s
  /\ Tooltip.opened s' = Tooltip.opened s
  /\ Tooltip.timer s'
     = match n with
       | 0 => Tooltip.timer s
       | S k => Some (Tooltip.nextHandle s + k)
       end.
Proof.
  revert s; induction n as [| n IH]; intros s; cbv zeta.
  - simpl; rewrite app_nil_r; repeat split.
  - change (Tooltip.run delay (repeat Tooltip.MouseOver (S n)) s)
      with (Tooltip.run delay (repeat Tooltip.MouseOver n)
              (Tooltip.delayedOpenPortal delay s)).
    destruct (IH (Tooltip.delayedOpenPortal delay s))
      as (Hq & Hnow & Hopen & Hcount & Htimer).
    rewrite Hq, Hnow, Hopen, Hcount, Htimer.
    unfold Tooltip.delayedOpenPortal, Tooltip.setTimeout, Tooltip.setTimer;
      simpl.
    repeat split.
    + rewrite <- app_assoc; f_equal; simpl.
      unfold Tooltip.queued at 2; rewrite Nat.add_0_r; f_equal.
      rewrite <- seq_shift, map_map.
      apply map_ext; intros i; unfold Tooltip.queued; simpl.
      f_equal; lia.
    + destruct n; f_equal; lia.
Qed.

Lemma fired_isOpen (A : Type) (ready : list A) (s : Tooltip.State) :
  Tooltip.isOpen (fold_left (fun s _ => Tooltip.openPortal s) ready s)
  = Tooltip.isOpen s || match ready with [] => false | _ => true end.
Proof.
  revert s; induction ready as [| t ready IH]; intros s; simpl.
  - rewrite orb_false_r; reflexivity.
  - rewrite IH; unfold Tooltip.openPortal.
    destruct (Tooltip.isOpen s) eqn:E; simpl; [rewrite E |]; reflexivity.
Qed.

Lemma filter_queued_others (s : Tooltip.State) (n : nat) (l : list nat) :
  (forall i, In i l -> i < n) ->
  filter (fun t => negb (Tooltip.handle t =? Tooltip.nextHandle s + n)%nat)
    (map (Tooltip.queued delay s) l) = map (Tooltip.queued delay s) l.
Proof.
  induction l as [| i l IH]; intros H; simpl; [reflexivity |].
  assert (E : Nat.eqb (Tooltip.nextHandle s + i) (Tooltip.nextHandle s + n)
              = false).
  { apply Nat.eqb_neq; specialize (H i (or_introl eq_refl)); lia. }
  rewrite E; simpl; rewrite IH; [reflexivity |].
  intros j Hj; apply H; right; exact Hj.
Qed.

Lemma filter_queued_due (s : Tooltip.State) (l : list nat) :
  filter (fun e => Nat.leb (Tooltip.due e) (Tooltip.now s + delay))
    (map (Tooltip.queued delay s) l) = map (Tooltip.queued delay s) l.
Proof.
  induction l as [| i l IH]; simpl; [reflexivity |].
  rewrite Nat.leb_refl, IH; reflexivity.
Qed.

(** X13: A dismissal clears the timer of the last hover start only: after [n + 1]
    hover starts from a state without timers and a dismiss trigger, the
    tooltip is closed with [n] timers still queued, and once the delay has
    passed it is open unless [n] is 0. *)
Theorem hover_repeated_dismissed (s : Tooltip.State) (n : nat)
    (ev : Tooltip.Event) :
  Tooltip.timeouts s = [] -> Tooltip.dismisses ev = true ->
  let s1 := Tooltip.run delay (repeat Tooltip.MouseOver (S n) ++ [ev])%list s in
  Tooltip.isOpen s1 = false
  /\ List.length (Tooltip.timeouts s1) = n
  /\ Tooltip.isOpen (Tooltip.run delay [Tooltip.Elapse delay] s1)
     = negb (n =? 0)%nat.
Proof.
  intros Hq Hev; cbv zeta.
  destruct (hover_repeated (S n) s) as (Hq' & Hnow & _ & _ & Htimer).
  rewrite Hq, app_nil_l in Hq'.
  assert (E : Tooltip.run delay (repeat Tooltip.MouseOver (S n) ++ [ev])%list s
              = Tooltip.cancelableClosePortal
                  (Tooltip.run delay (repeat Tooltip.MouseOver (S n)) s)).
  { unfold Tooltip.run; rewrite fold_left_app; cbn [fold_left].
    apply step_dismiss, Hev. }
  rewrite E; clear E.
  set (s0 := Tooltip.run delay (repeat Tooltip.MouseOver (S n)) s) in *.
  assert (Q : Tooltip.timeouts (Tooltip.cancelableClosePortal s0)
              = map (Tooltip.queued delay s) (seq 0 n)).
  { unfold Tooltip.cancelableClosePortal, Tooltip.clearTimeout.
    rewrite Htimer; cbn [Tooltip.closePortal Tooltip.timeouts].
    rewrite Hq', seq_S, map_app, filter_app.
    rewrite filter_queued_others
      by (intros i Hi; apply in_seq in Hi; lia).
    cbn [map filter Tooltip.queued Tooltip.handle Nat.add].
    rewrite Nat.eqb_refl; cbn [negb]; apply app_nil_r. }
  assert (N : Tooltip.now (Tooltip.cancelableClosePortal s0) = Tooltip.now s).
  { unfold Tooltip.cancelableClosePortal, Tooltip.clearTimeout.
    rewrite Htimer; exact Hnow. }
  assert (C : Tooltip.isOpen (Tooltip.cancelableClosePortal s0) = false)
    by reflexivity.
  set (s1 := Tooltip.cancelableClosePortal s0) in *; clearbody s1.
  repeat split.
  - exact C.
  - rewrite Q, length_map, length_seq; reflexivity.
  - unfold Tooltip.run; cbn [fold_left Tooltip.step]; unfold Tooltip.elapse.
    rewrite fired_isOpen; cbn [Tooltip.isOpen].
    rewrite C, Q, N, filter_queued_due.
    destruct n; reflexivity.
Qed.

End Hovers.

Lemma hover_repeated_dismissed_witness :
  let s1 := Tooltip.run 350
              (repeat Tooltip.MouseOver 3 ++ [Tooltip.MouseOut Tooltip.leave])%list
              Tooltip.initialState in
  Tooltip.isOpen s1 = false
  /\ List.length (Tooltip.timeouts s1) = 2
  /\ Tooltip.isOpen (Tooltip.run 350 [Tooltip.Elapse 350] s1) = true.
Proof.
  apply (hover_repeated_dismissed 350 Tooltip.initialState 2
           (Tooltip.MouseOut Tooltip.leave)); reflexivity.
Defined.

(** ** Further properties of the contextual menu *)

(** X15: [getPositionNode] returns null exactly when there is neither a position
    node nor a wrapper; a position node given as a prop is the node used,
    whatever the wrapper holds. *)
Theorem getPositionNode_null_iff
    (wrapper positionNode : option ContextualMenu.HTMLElement) :
  (ContextualMenu.getPositionNode wrapper positionNode = None
   <-> wrapper = None /\ positionNode = None)
  /\ (forall node, positionNode = Some node ->
        ContextualMenu.getPositionNode wrapper positionNode = Some node).
Proof.
  split.
  - destruct positionNode as [n |], wrapper as [w |]; simpl;
      try destruct (ContextualMenu.toggle w);
      split; try (intros H; discriminate H);
      try (intros [H1 H2]; first [discriminate H1 | discriminate H2]);
      auto.
  - intros node ->; reflexivity.
Qed.

Lemma getPositionNode_null_iff_witness :
  ContextualMenu.getPositionNode (Some ContextualMenu.body)
    (Some ContextualMenu.shownToggle) = Some ContextualMenu.shownToggle.
Proof.
  apply (proj2 (getPositionNode_null_iff (Some ContextualMenu.body)
                  (Some ContextualMenu.shownToggle))).
  reflexivity.
Defined.

(** X16: A click on the toggle flips the open flag and tells [onToggleMenu] the
    new value, once. *)
Theorem onClick_flips (s : ContextualMenu.State) :
  ContextualMenu.isOpen (ContextualMenu.onClick s)
  = negb (ContextualMenu.isOpen s)
  /\ ContextualMenu.toggled (ContextualMenu.onClick s)
     = (ContextualMenu.toggled s ++ [negb (ContextualMenu.isOpen s)])%list.
Proof.
  unfold ContextualMenu.onClick, ContextualMenu.openPortal,
    ContextualMenu.onOpen, ContextualMenu.closePortal,
    ContextualMenu.updatePositionCoords.
  destruct (ContextualMenu.isOpen s) eqn:E; simpl.
  - split; reflexivity.
  - destruct (ContextualMenu.getPositionNode (ContextualMenu.wrapper s)
                (ContextualMenu.positionNode s)); split; reflexivity.
Qed.

(** X17: A click that opens the menu stores the rectangle of the position node,
    and keeps the stored coordinates when there is no such node. *)
Theorem onClick_opens_at_node (s : ContextualMenu.State) :
  ContextualMenu.isOpen s = false ->
  ContextualMenu.positionCoords (ContextualMenu.onClick s)
  = match ContextualMenu.getPositionNode (ContextualMenu.wrapper s)
            (ContextualMenu.positionNode s) with
    | Some parent => Some (ContextualMenu.getBoundingClientRect parent)
    | None => ContextualMenu.positionCoords s
    end.
Proof.
  intros E.
  unfold ContextualMenu.onClick, ContextualMenu.openPortal,
    ContextualMenu.onOpen, ContextualMenu.updatePositionCoords.
  rewrite E; simpl.
  destruct (ContextualMenu.getPositionNode (ContextualMenu.wrapper s)
              (ContextualMenu.positionNode s)); reflexivity.
Qed.

Lemma onClick_opens_at_node_witness :
  let s := ContextualMenu.onResize
             (ContextualMenu.openOn ContextualMenu.hiddenToggle) in
  ContextualMenu.positionCoords (ContextualMenu.onClick s)
  = Some ContextualMenu.movedRect.
Proof.
  cbv zeta.
  apply (onClick_opens_at_node
           (ContextualMenu.onResize
              (ContextualMenu.openOn ContextualMenu.hiddenToggle))).
  reflexivity.
Defined.



(** X19: Handling a resize twice on the same page is handling it once, and a
    resize never opens a menu. *)
Theorem onResize_idempotent (s : ContextualMenu.State) :
  ContextualMenu.onResize (ContextualMenu.onResize s)
  = ContextualMenu.onResize s
  /\ (ContextualMenu.isOpen (ContextualMenu.onResize s) = true ->
      ContextualMenu.isOpen s = true).
Proof.
  unfold ContextualMenu.onResize, ContextualMenu.updatePositionCoords,
    ContextualMenu.closePortal, ContextualMenu.getPositionNodeVisible.
  destruct (ContextualMenu.getPositionNode (ContextualMenu.wrapper s)
              (ContextualMenu.positionNode s)) as [parent |] eqn:P.
  - destruct (ContextualMenu.offsetParent parent) eqn:O; simpl.
    + rewrite P, O; simpl; split; auto.
    + destruct (ContextualMenu.isOpen s) eqn:E; simpl.
      * rewrite P, O; simpl; split; [reflexivity | intros H; discriminate H].
      * rewrite P, O, E; simpl; split; [reflexivity | intros H; discriminate H].
  - rewrite P; split; auto.
Qed.

Lemma onResize_idempotent_witness :
  ContextualMenu.isOpen (ContextualMenu.openOn ContextualMenu.shownToggle)
  = true.
Proof.
  apply (proj2 (onResize_idempotent
                  (ContextualMenu.openOn ContextualMenu.shownToggle))).
  reflexivity.
Defined.








